(** * PooyaBot: the agent turn of [bot.py]

    A shallow embedding of the Telegram handler [handle_message], of the
    LangGraph workflow it invokes ([chatbot_node], [should_continue], the
    two-node cycle agent <-> tools) and of the two tools defined in the
    module ([check_my_memory], [check_github_activity]), followed by the
    properties of one user turn.

    Python text is a [string] of UTF-8 bytes.  Python exceptions are values
    of [Exn]; a call that may raise returns an [Outcome].  The language
    model, the tool node, the vector store, the GitHub client and the
    Telegram API are external services: they are parameters of the
    development. *)

From Stdlib Require Import List String Ascii NArith ZArith Bool Lia Arith.
From Stdlib Require Import DecimalString Sorted.
Import ListNotations.
Local Open Scope nat_scope.
Local Open Scope list_scope.
Local Open Scope string_scope.

Set Implicit Arguments.

(** ** Python text *)

Module PyStr.

(** The double quote character, written by its code. *)
Definition dq : string := String (ascii_of_nat 34) EmptyString.

(** [sep.join(parts)]. *)
Fixpoint join (sep : string) (parts : list string) : string :=
  match parts with
  | [] => ""
  | [p] => p
  | p :: rest => p ++ sep ++ join sep rest
  end.

(** How many bytes the UTF-8 sequence that starts with [lead] has; a byte
    that starts none counts for itself. *)
Definition width (lead : ascii) : nat :=
  let n := nat_of_ascii lead in
  if (n <? 194)%nat then 1
  else if (n <? 224)%nat then 2
  else if (n <? 240)%nat then 3
  else if (n <? 245)%nat then 4
  else 1.

(** A continuation byte of a UTF-8 sequence. *)
Definition cont (c : ascii) : bool :=
  let n := nat_of_ascii c in (128 <=? n)%nat && (n <? 192)%nat.

(** The characters of a text, each as its UTF-8 sequence. *)
Fixpoint chars (s : string) : list string :=
  match s with
  | EmptyString => []
  | String c1 s1 =>
      match width c1, s1 with
      | 2, String c2 s2 =>
          if cont c2 then String c1 (String c2 "") :: chars s2
          else String c1 "" :: chars s1
      | 3, String c2 (String c3 s3) =>
          if cont c2 && cont c3 then String c1 (String c2 (String c3 "")) :: chars s3
          else String c1 "" :: chars s1
      | 4, String c2 (String c3 (String c4 s4)) =>
          if cont c2 && cont c3 && cont c4
          then String c1 (String c2 (String c3 (String c4 ""))) :: chars s4
          else String c1 "" :: chars s1
      | _, _ => String c1 "" :: chars s1
      end
  end.

(** The code point of one character; U+FFFD for bytes that encode none. *)
Definition code_point (ch : string) : N :=
  match ch with
  | String c1 EmptyString =>
      if N_of_ascii c1 <? 128 then N_of_ascii c1 else 65533
  | String c1 (String c2 EmptyString) =>
      (N_of_ascii c1 - 192) * 64 + (N_of_ascii c2 - 128)
  | String c1 (String c2 (String c3 EmptyString)) =>
      let cp := (N_of_ascii c1 - 224) * 4096 + (N_of_ascii c2 - 128) * 64
                + (N_of_ascii c3 - 128) in
      if cp <? 2048 then 65533 else cp
  | String c1 (String c2 (String c3 (String c4 EmptyString))) =>
      let cp := (N_of_ascii c1 - 240) * 262144 + (N_of_ascii c2 - 128) * 4096
                + (N_of_ascii c3 - 128) * 64 + (N_of_ascii c4 - 128) in
      if (cp <? 65536) || (1114111 <? cp) then 65533 else cp
  | _ => 65533
  end%N.

(** [str.isspace] of a code point, the test [str.strip] uses: TAB, LF,
    VT, FF, CR, the separators FS GS RS US, SPACE, NEL (U+0085), the
    no-break space (U+00A0), U+1680, U+2000 to U+200A, the line and
    paragraph separators (U+2028, U+2029), U+202F, U+205F and the
    ideographic space (U+3000). *)
Definition isspace (cp : N) : bool :=
  ((9 <=? cp) && (cp <=? 13) || (28 <=? cp) && (cp <=? 32)
   || (cp =? 133) || (cp =? 160) || (cp =? 5760)
   || (8192 <=? cp) && (cp <=? 8202)
   || (cp =? 8232) || (cp =? 8233) || (cp =? 8239) || (cp =? 8287)
   || (cp =? 12288))%N.

Definition space_char (ch : string) : bool := isspace (code_point ch).

Fixpoint lstrip_chars (cs : list string) : list string :=
  match cs with
  | [] => []
  | ch :: rest => if space_char ch then lstrip_chars rest else cs
  end.

Fixpoint rstrip_chars (cs : list string) : list string :=
  match cs with
  | [] => []
  | ch :: rest =>
      match rstrip_chars rest with
      | [] => if space_char ch then [] else [ch]
      | kept => ch :: kept
      end
  end.

(** [s.strip()] with no argument: [s] without the whitespace characters
    at its two ends. *)
Definition strip (s : string) : string :=
  String.concat "" (rstrip_chars (lstrip_chars (chars s))).

(** Truth value of a [str]: only the empty one is falsy. *)
Definition truthy (s : string) : bool :=
  match s with EmptyString => false | _ => true end.

Fixpoint contains (c : ascii) (s : string) : bool :=
  match s with
  | EmptyString => false
  | String d s' => Ascii.eqb c d || contains c s'
  end.

Definition hex_digit (n : nat) : ascii :=
  if (n <? 10)%nat then ascii_of_nat (48 + n) else ascii_of_nat (87 + n).

(** One character of [repr(s)], for the surrounding quote [q]. *)
Definition repr_char (q c : ascii) : string :=
  let n := nat_of_ascii c in
  if Ascii.eqb c q || Ascii.eqb c "\"%char then String "\"%char (String c "")
  else if (n =? 9)%nat then "\t"
  else if (n =? 10)%nat then "\n"
  else if (n =? 13)%nat then "\r"
  else if (n <? 32)%nat || (n =? 127)%nat then
    String "\"%char (String "x"%char
      (String (hex_digit (n / 16)) (String (hex_digit (n mod 16)) "")))
  else String c "".

Fixpoint repr_body (q : ascii) (s : string) : string :=
  match s with
  | EmptyString => EmptyString
  | String c s' => repr_char q c ++ repr_body q s'
  end.

(** [repr(s)] of a [str]: single quotes, unless the text holds a single
    quote and no double quote.  Bytes from 128 on are kept: they stand
    for printable non-ASCII text (a text with non-printable non-ASCII
    characters, which [repr] escapes, is not covered). *)
Definition repr (s : string) : string :=
  let q : ascii :=
    if contains "'"%char s && negb (contains (ascii_of_nat 34) s)
    then ascii_of_nat 34 else "'"%char in
  String q (repr_body q s ++ String q "").

End PyStr.

(** ** Python values, exceptions and outcomes *)

(** The values a message's [content] and a tool call's [args] are built
    from.  A [dict] keeps its insertion order, which [repr] shows. *)
Unset Elimination Schemes.
Inductive PyVal : Type :=
| VNone
| VBool (b : bool)
| VInt (z : Z)
| VStr (s : string)
| VList (items : list PyVal)
| VDict (entries : list (string * PyVal)).
Set Elimination Schemes.

(** [repr(v)]. *)
Fixpoint py_repr (v : PyVal) : string :=
  match v with
  | VNone => "None"
  | VBool true => "True"
  | VBool false => "False"
  | VInt z => NilZero.string_of_int (Z.to_int z)
  | VStr s => PyStr.repr s
  | VList items => "[" ++ PyStr.join ", " (map py_repr items) ++ "]"
  | VDict entries =>
      "{" ++ PyStr.join ", "
               (map (fun kv : string * PyVal => let (k, x) := kv in PyStr.repr k ++ ": " ++ py_repr x)
                    entries) ++ "}"
  end.

(** [str(v)]: the text itself for a [str], [repr(v)] for the rest. *)
Definition py_str (v : PyVal) : string :=
  match v with
  | VStr s => s
  | _ => py_repr v
  end.

(** [key in d] and [d[key]] on a [dict]. *)
Fixpoint dict_get (entries : list (string * PyVal)) (key : string) : option PyVal :=
  match entries with
  | [] => None
  | (k, x) :: rest => if String.eqb k key then Some x else dict_get rest key
  end.

(** A raised exception (an instance of [Exception]): its class and [str(e)]. *)
Record Exn : Type := mkExn { exn_class : string; exn_text : string }.

Inductive Outcome (A : Type) : Type :=
| Ok (a : A)
| Raise (e : Exn).
Arguments Ok {A} a.
Arguments Raise {A} e.

Definition obind {A B} (c : Outcome A) (k : A -> Outcome B) : Outcome B :=
  match c with
  | Ok a => k a
  | Raise e => Raise e
  end.

(** [try: body / except Exception as e: handler]. *)
Definition otry {A} (body : Outcome A) (handler : Exn -> Outcome A) : Outcome A :=
  match body with
  | Ok a => Ok a
  | Raise e => handler e
  end.

(** [xs[-1]]. *)
Definition last_item {A} (xs : list A) : Outcome A :=
  match rev xs with
  | [] => Raise (mkExn "IndexError" "list index out of range")
  | x :: _ => Ok x
  end.

Definition nl : string := String (ascii_of_nat 10) "".

(** ** The tools (section 3 of the module) *)

Record Document : Type := mkDocument { page_content : string }.

Record Repository : Type :=
  mkRepository { name : string; html_url : string; description : option string }.

Section Tools.

(** [vectorstore.as_retriever(search_kwargs={"k": 3}).invoke(query)]. *)
Variable retriever_invoke : string -> Outcome (list Document).

(** [Github(GITHUB_TOKEN).get_user().get_repos(sort="updated", direction="desc")]. *)
Variable get_repos : Outcome (list Repository).

Definition check_my_memory (query : string) : Outcome string :=
  otry
    (obind (retriever_invoke query) (fun docs =>
       match docs with
       | [] => Ok "No specific personal memory found."
       | _ => Ok (PyStr.join (nl ++ nl) (map page_content docs))
       end))
    (fun e => Ok ("Error reading memory: " ++ exn_text e)).

(** The text of one repository in [info]. *)
Definition repo_line (repo : Repository) : string :=
  let desc :=
    match description repo with
    | Some d => if PyStr.truthy d then d else "No description"
    | None => "No description"
    end in
  "Repo: " ++ name repo ++ " | URL: " ++ html_url repo ++ " | Desc: " ++ desc.

Definition check_github_activity (query : string) : Outcome string :=
  otry
    (obind get_repos (fun all_repos =>
       let repos := firstn 3 all_repos in
       let info := map repo_line repos in
       match info with
       | [] => Ok "No recent public repositories found."
       | _ => Ok (PyStr.join nl info)
       end))
    (fun e => Ok ("Error connecting to GitHub: " ++ exn_text e)).

End Tools.

(** ** Messages and the agent state (section 4 of the module) *)

Record ToolCall : Type :=
  mkToolCall { tc_name : string; tc_args : PyVal; tc_id : option string }.

Inductive BaseMessage : Type :=
| SystemMessage (content : PyVal)
| HumanMessage (content : PyVal)
| AIMessage (content : PyVal) (tool_calls : list ToolCall)
| ToolMessage (content : PyVal) (tool_call_id : string).

Definition content_of (m : BaseMessage) : PyVal :=
  match m with
  | SystemMessage c | HumanMessage c | AIMessage c _ | ToolMessage c _ => c
  end.

(** What the chat model answers: always an [AIMessage]. *)
Record AIResponse : Type :=
  mkAIResponse { ai_content : PyVal; ai_tool_calls : list ToolCall }.

Record AgentState : Type := mkState { messages : list BaseMessage }.

(** The reducer of the [messages] channel.  [add_messages] appends the
    messages of an update whose id is not in the log yet.  The ids of a
    turn are generated message by message (by the chat model wrapper for
    its answer, by the reducer for a message without one) and so never
    repeat: ids are left out of [BaseMessage] and the reducer appends. *)
Definition add_messages (left right : list BaseMessage) : list BaseMessage :=
  (left ++ right)%list.

Definition apply_update (state update : AgentState) : AgentState :=
  {| messages := add_messages (messages state) (messages update) |}.

(** ** Effects of a turn *)

Inductive BotCall : Type :=
| SendChatAction (chat_id : Z) (action : string)
| SendMessage (chat_id : Z) (text : PyVal).

(** What a turn does to the outside: the snapshots handed to the chat
    model, the states handed to the tool node, the Telegram calls made and
    the lines logged, each in order. *)
Record World : Type :=
  mkWorld { model_calls : list (list BaseMessage);
            tool_runs : list AgentState;
            outbox : list BotCall;
            error_log : list string }.

Definition quiet : World :=
  {| model_calls := []; tool_runs := []; outbox := []; error_log := [] |}.

Definition M (A : Type) : Type := World -> Outcome A * World.

Definition ret {A} (a : A) : M A := fun w => (Ok a, w).

Definition bind {A B} (c : M A) (k : A -> M B) : M B :=
  fun w =>
    match c w with
    | (Ok a, w') => k a w'
    | (Raise e, w') => (Raise e, w')
    end.

Definition lift {A} (o : Outcome A) : M A := fun w => (o, w).

(** [try: body / except Exception as e: handler], with effects kept. *)
Definition try_except {A} (body : M A) (handler : Exn -> M A) : M A :=
  fun w =>
    match body w with
    | (Ok a, w') => (Ok a, w')
    | (Raise e, w') => handler e w'
    end.

Declare Scope turn_scope.
Delimit Scope turn_scope with turn.
Notation "x <- c ;; k" := (bind c (fun x => k))
  (at level 61, c at next level, right associativity) : turn_scope.
Notation "c ;;; k" := (bind c (fun _ => k))
  (at level 61, right associativity) : turn_scope.
Local Open Scope turn_scope.

Definition record_bot_call (call : BotCall) (w : World) : World :=
  {| model_calls := model_calls w; tool_runs := tool_runs w;
     outbox := (outbox w ++ [call])%list; error_log := error_log w |}.

Definition record_error (line : string) (w : World) : World :=
  {| model_calls := model_calls w; tool_runs := tool_runs w;
     outbox := outbox w; error_log := (error_log w ++ [line])%list |}.

Definition record_model_call (snapshot : list BaseMessage) (w : World) : World :=
  {| model_calls := (model_calls w ++ [snapshot])%list; tool_runs := tool_runs w;
     outbox := outbox w; error_log := error_log w |}.

Definition record_tool_run (state : AgentState) (w : World) : World :=
  {| model_calls := model_calls w; tool_runs := (tool_runs w ++ [state])%list;
     outbox := outbox w; error_log := error_log w |}.

(** [context.bot] as the handler uses it: what the Telegram API answers
    to a call, nothing when it accepts it, an exception when it refuses
    it or cannot be reached. *)
Definition Bot : Type := BotCall -> Outcome unit.

(** A Telegram API that accepts every call. *)
Definition telegram_ok : Bot := fun _ => Ok tt.

(** [await bot.send_message(chat_id=chat_id, text=text)]: the call is
    made, and its outcome is the API's. *)
Definition send_message (bot : Bot) (chat_id : Z) (text : PyVal) : M unit :=
  fun w => (bot (SendMessage chat_id text), record_bot_call (SendMessage chat_id text) w).

(** [await bot.send_chat_action(chat_id=chat_id, action=action)]. *)
Definition send_chat_action (bot : Bot) (chat_id : Z) (action : string) : M unit :=
  fun w =>
    (bot (SendChatAction chat_id action),
     record_bot_call (SendChatAction chat_id action) w).

(** [logger.error(line)]. *)
Definition logger_error (line : string) : M unit :=
  fun w => (Ok tt, record_error line w).

(** The system prompt of [handle_message], as written in the module. *)
Definition system_message : string :=
  "You are the AI Digital Twin of **Pooya Nasiri**. You are a developer, a mentor, and a digital secretary.

    **CORE IDENTITY & TONE:**
    1. **The Persona:** You are friendly, tech-savvy, and warm, but your defining characteristic is **SARCASM**. You love a good joke, you are witty, and you often poke fun at the user's questions before helping them.
    2. **The " ++ PyStr.dq ++
  "Not an AI" ++ PyStr.dq ++
  " Rule:** NEVER say " ++ PyStr.dq ++
  "As an AI" ++ PyStr.dq ++
  ". You are the digital essence of Pooya.
    3. **Third Person ONLY:** You must **ALWAYS** speak about Pooya in the third person.
       - WRONG: " ++ PyStr.dq ++
  "I think you should..." ++ PyStr.dq ++
  " or " ++ PyStr.dq ++
  "I suggest..." ++ PyStr.dq ++
  "
       - RIGHT: " ++ PyStr.dq ++
  "Pooya suggests that you..." ++ PyStr.dq ++
  " or " ++ PyStr.dq ++
  "Pooya thinks this is a terrible idea, but he would say..." ++ PyStr.dq ++
  "
    4. **Language Protocol:** - **English:** Refer to him as " ++ PyStr.dq ++
  "Pooya" ++ PyStr.dq ++
  ".
       - **Persian (Farsi):** If the user speaks Farsi, you MUST respond in Farsi. Refer to him as " ++ PyStr.dq ++
  "پویا" ++ PyStr.dq ++
  ". Be just as sarcastic and helpful in Farsi.

    **TOOL USAGE STRATEGY:**
    - **Step 1 (Memory):** Always use `check_my_memory` first. See if Pooya has actual past experiences, resume details, or specific opinions on the topic.
    - **Step 2 (Live Info):** Use `web_search` if the user asks about the weather, current news, or wants to know what Pooya is up to on LinkedIn/Instagram.
    - **Step 3 (Code):** Use `check_github_activity` ONLY for questions about coding, repositories, or technical stacks.

    **THE " ++ PyStr.dq ++
  "NEVER GIVE UP" ++ PyStr.dq ++
  " RULE (CRITICAL):**
    - If the tools return " ++ PyStr.dq ++
  "No results" ++ PyStr.dq ++
  " (e.g., for " ++ PyStr.dq ++
  "How to fix a broken heart" ++ PyStr.dq ++
  " or " ++ PyStr.dq ++
  "How to sleep better" ++ PyStr.dq ++
  "), **DO NOT** say " ++ PyStr.dq ++
  "Pooya doesn't know" ++ PyStr.dq ++
  " or " ++ PyStr.dq ++
  "I have no information." ++ PyStr.dq ++
  "
    - **INSTEAD:** Improvise! Use general knowledge but **frame it through Pooya's personality.**
       - *Example:* " ++ PyStr.dq ++
  "Pooya hasn't committed code for 'better sleep' to GitHub yet, but he would probably tell you to stop staring at blue light and close your tabs." ++ PyStr.dq ++
  "
       - *Example (Farsi):* " ++ PyStr.dq ++
  "پویا متخصص قلب نیست، اما پیشنهاد می‌کند که..." ++ PyStr.dq ++
  "
    - **Always provide an answer**, even if it's a sarcastic life tip based on general logic.
    ".


(** ** The graph (section 4 of the module) *)

Inductive Node : Type := agent | tools.

(** What [should_continue] returns: the name of the next node, or [END]. *)
Inductive Route : Type := to_tools | END.

(** The fixed replies of the handler. *)
Definition invalid_text_reply : string := "Please send a valid text message.".
Definition no_text_reply : string :=
  "I'm thinking, but I couldn't formulate a text response.".
Definition internal_error_reply : string :=
  "Sorry, I encountered an internal error. Please try again.".

(** The block under [# Robust Text Extraction]: [bot_reply] from
    [final_message.content]. *)
Definition text_extraction (content : PyVal) : PyVal :=
  match content with
  | VList (first :: _) =>
      match first with
      | VDict entries =>
          match dict_get entries "text" with
          | Some text => text
          | None => VStr (py_str content)
          end
      | _ => VStr (py_str content)
      end
  | VStr s => VStr s
  | _ => VStr no_text_reply
  end.

(** [final_message = result["messages"][-1]] and the extraction of
    [bot_reply] from it. *)
Definition extract_reply (result : AgentState) : M PyVal :=
  final_message <- lift (last_item (messages result)) ;;
  ret (text_extraction (content_of final_message)).

Section Agent.

(** [llm_with_tools.invoke(messages)]: the chat model with the tools bound. *)
Variable llm_with_tools_invoke : list BaseMessage -> Outcome AIResponse.

(** [ToolNode(tools)] run on a state: the tool messages answering the
    tool calls of the last message. *)
Variable ToolNode_invoke : AgentState -> Outcome (list BaseMessage).

(** [context.bot]. *)
Variable bot : Bot.

Definition chatbot_node (state : AgentState) : M AgentState :=
  fun w =>
    let w' := record_model_call (messages state) w in
    match llm_with_tools_invoke (messages state) with
    | Ok r => (Ok {| messages := [AIMessage (ai_content r) (ai_tool_calls r)] |}, w')
    | Raise e => (Raise e, w')
    end.

Definition tools_node (state : AgentState) : M AgentState :=
  fun w =>
    let w' := record_tool_run state w in
    match ToolNode_invoke state with
    | Ok msgs => (Ok {| messages := msgs |}, w')
    | Raise e => (Raise e, w')
    end.

Definition should_continue (state : AgentState) : Outcome Route :=
  obind (last_item (messages state)) (fun last_message =>
    match last_message with
    | AIMessage _ tool_calls =>
        match tool_calls with
        | [] => Ok END
        | _ => Ok to_tools
        end
    | SystemMessage _ =>
        Raise (mkExn "AttributeError"
                     "'SystemMessage' object has no attribute 'tool_calls'")
    | HumanMessage _ =>
        Raise (mkExn "AttributeError"
                     "'HumanMessage' object has no attribute 'tool_calls'")
    | ToolMessage _ _ =>
        Raise (mkExn "AttributeError"
                     "'ToolMessage' object has no attribute 'tool_calls'")
    end).

(** [workflow.add_node]: what runs at each node. *)
Definition node_action (node : Node) : AgentState -> M AgentState :=
  match node with
  | agent => chatbot_node
  | tools => tools_node
  end.

(** [workflow.add_conditional_edges("agent", should_continue)] and
    [workflow.add_edge("tools", "agent")]: the node after [node], if any. *)
Definition workflow_edges (node : Node) (state : AgentState) : Outcome (option Node) :=
  match node with
  | agent =>
      obind (should_continue state) (fun route =>
        match route with
        | to_tools => Ok (Some tools)
        | END => Ok None
        end)
  | tools => Ok (Some agent)
  end.

Definition GraphRecursionError : Exn :=
  mkExn "GraphRecursionError"
        "Recursion limit reached without hitting a stop condition.".

(** The compiled graph running from [node] with [steps] steps left of the
    recursion limit (the number of steps a run may take).  Each run of a
    node is one step; when a node is due and no step is left the run
    raises [GraphRecursionError].  A run entered at [agent] that returns
    takes an odd number of steps, so under the limit 10 of
    [handle_message] it takes 9 at most; at a limit that a run would use
    up exactly, LangGraph checks the limit before it finds nothing due. *)
Fixpoint run_from (steps : nat) (node : Node) (state : AgentState) : M AgentState :=
  match steps with
  | O => lift (Raise GraphRecursionError)
  | S steps' =>
      update <- node_action node state ;;
      let state' := apply_update state update in
      next <- lift (workflow_edges node state') ;;
      match next with
      | Some node' => run_from steps' node' state'
      | None => ret state'
      end
  end.

(** [app_graph.invoke(input, config={"recursion_limit": recursion_limit})],
    entered at [agent] ([workflow.set_entry_point("agent")]). *)
Definition app_graph_invoke (input : AgentState) (recursion_limit : nat) : M AgentState :=
  run_from recursion_limit agent (apply_update {| messages := [] |} input).

(** ** The Telegram handler (section 5 of the module) *)

(** The conversation a turn starts from. *)
Definition seed_messages (user_text : string) : list BaseMessage :=
  [SystemMessage (VStr system_message); HumanMessage (VStr user_text)].

(** [handle_message] from [messages = ...] to the end of its
    [try]/[except]: the value of [bot_reply]. *)
Definition compose_reply (user_text : string) : M PyVal :=
  try_except
    (result <- app_graph_invoke {| messages := seed_messages user_text |} 10 ;;
     extract_reply result)
    (fun e =>
       logger_error ("Error processing message: " ++ exn_text e) ;;;
       ret (VStr internal_error_reply)).

(** [handle_message] from its guard on, for the [user_text] and [chat_id]
    read off the update. *)
Definition handle_message (user_text : option string) (chat_id : Z) : M unit :=
  match user_text with
  | None => send_message bot chat_id (VStr invalid_text_reply)
  | Some text =>
      if negb (PyStr.truthy text) || negb (PyStr.truthy (PyStr.strip text)) then
        send_message bot chat_id (VStr invalid_text_reply)
      else
        send_chat_action bot chat_id "typing" ;;;
        bot_reply <- compose_reply text ;;
        send_message bot chat_id bot_reply
  end.


(** A model that asks for tools at every step. *)
Definition always_requests_tools : Prop :=
  forall snapshot, exists r,
    llm_with_tools_invoke snapshot = Ok r /\ ai_tool_calls r <> [].

(** A tool node that answers at every step. *)
Definition tools_always_answer : Prop :=
  forall state, exists msgs, ToolNode_invoke state = Ok msgs.

End Agent.

(** * Vocabulary of the properties *)

(** A text made of whitespace characters only (the empty text included). *)
Definition whitespace_only (s : string) : bool :=
  forallb PyStr.space_char (PyStr.chars s).

(** A user text the handler should turn away: none, empty or blank. *)
Definition blank (user_text : option string) : Prop :=
  match user_text with
  | None => True
  | Some text => whitespace_only text = true
  end.

(** Whether a content segment is a [dict] with a ["text"] entry. *)
Definition has_text (segment : PyVal) : bool :=
  match segment with
  | VDict entries =>
      match dict_get entries "text" with
      | Some _ => true
      | None => false
      end
  | _ => false
  end.

(** Extraction as the specification words it, for comparison with
    [text_extraction]: the first textual segment of a structured content,
    the generic fallback when there is none. *)
Fixpoint spec_first_textual_segment (segments : list PyVal) : option PyVal :=
  match segments with
  | [] => None
  | VDict entries :: rest =>
      match dict_get entries "text" with
      | Some text => Some text
      | None => spec_first_textual_segment rest
      end
  | _ :: rest => spec_first_textual_segment rest
  end.

Definition spec_extraction (content : PyVal) : PyVal :=
  match content with
  | VStr s => VStr s
  | VList segments =>
      match spec_first_textual_segment segments with
      | Some text => text
      | None => VStr no_text_reply
      end
  | _ => VStr no_text_reply
  end.

(** [after] is [before] with messages added at the end. *)
Definition extends (before after : list BaseMessage) : Prop :=
  exists added, after = (before ++ added)%list.

(** The number of model invocations that fit in [steps] steps from [node]. *)
Definition model_budget (node : Node) (steps : nat) : nat :=
  match node with
  | agent => Nat.div2 (S steps)
  | tools => Nat.div2 steps
  end.

(** ** Sample services, for concrete runs *)

Definition resume_call : ToolCall :=
  mkToolCall "check_my_memory" (VDict [("query", VStr "resume")]) (Some "call_1").

(** A model that answers every snapshot with a call to the memory tool. *)
Definition eager_model (snapshot : list BaseMessage) : Outcome AIResponse :=
  Ok {| ai_content := VStr ""; ai_tool_calls := [resume_call] |}.

(** A model whose final answer has no text. *)
Definition silent_model (snapshot : list BaseMessage) : Outcome AIResponse :=
  Ok {| ai_content := VStr ""; ai_tool_calls := [] |}.

(** A model whose call fails. *)
Definition failing_model (snapshot : list BaseMessage) : Outcome AIResponse :=
  Raise (mkExn "ResourceExhausted" "429 quota exceeded").

(** A model that consults the memory once, then answers. *)
Definition one_lookup_model (snapshot : list BaseMessage) : Outcome AIResponse :=
  if (List.length snapshot <=? 2)%nat
  then Ok {| ai_content := VStr ""; ai_tool_calls := [resume_call] |}
  else Ok {| ai_content := VStr "Pooya has no resume on file."; ai_tool_calls := [] |}.

(** Whitespace beyond ASCII, in UTF-8: the no-break space U+00A0, the em
    space U+2003 and the ideographic space U+3000. *)
Definition nbsp : string := String (ascii_of_nat 194) (String (ascii_of_nat 160) "").
Definition em_space : string :=
  String (ascii_of_nat 226) (String (ascii_of_nat 128) (String (ascii_of_nat 131) "")).
Definition ideographic_space : string :=
  String (ascii_of_nat 227) (String (ascii_of_nat 128) (String (ascii_of_nat 128) "")).


(** A tool node that runs the memory tool on an empty store. *)
Definition memory_tool_node (state : AgentState) : Outcome (list BaseMessage) :=
  obind (check_my_memory (fun _ => Ok []) "resume")
        (fun text => Ok [ToolMessage (VStr text) "call_1"]).

(** A model that answers at once. *)
Definition greeting_model (snapshot : list BaseMessage) : Outcome AIResponse :=
  Ok {| ai_content := VStr "hi there"; ai_tool_calls := [] |}.

(** ** The memory populator ([ingest.py]) *)

(** What [ingest] does to the outside: the lines printed and the calls of
    [PineconeVectorStore.from_documents], each with its index name and
    documents. *)
Record Shell : Type :=
  mkShell { stdout : list string; uploads : list (string * list Document) }.

Definition print (line : string) (sh : Shell) : Shell :=
  {| stdout := (stdout sh ++ [line])%list; uploads := uploads sh |}.

Definition record_upload (index_name : string) (documents : list Document) (sh : Shell)
  : Shell :=
  {| stdout := stdout sh; uploads := (uploads sh ++ [(index_name, documents)])%list |}.

(** [len(docs)] as an f-string shows it. *)
Definition decimal (n : nat) : string := NilZero.string_of_uint (Nat.to_uint n).

Section Ingest.

(** [DirectoryLoader('./data', glob="**/*.pdf", loader_cls=PyPDFLoader).load()]. *)
Variable pdf_loader_load : Outcome (list Document).

(** [DirectoryLoader('./data', glob="**/*.txt", loader_cls=TextLoader).load()]. *)
Variable txt_loader_load : Outcome (list Document).

(** [RecursiveCharacterTextSplitter(chunk_size=1000, chunk_overlap=200).split_documents]. *)
Variable split_documents : list Document -> Outcome (list Document).

(** [GoogleGenerativeAIEmbeddings(model="models/text-embedding-004")]. *)
Variable make_embeddings : Outcome unit.

(** What [PineconeVectorStore.from_documents] answers for these documents. *)
Variable from_documents : list Document -> Outcome unit.

Definition ingest (sh : Shell) : Outcome unit * Shell :=
  let sh1 := print "--- 1. Loading Your 'Brain' (Data) ---" sh in
  match pdf_loader_load with
  | Raise e => (Raise e, sh1)
  | Ok pdf_docs =>
      match txt_loader_load with
      | Raise e => (Raise e, sh1)
      | Ok txt_docs =>
          let docs := (pdf_docs ++ txt_docs)%list in
          match docs with
          | [] => (Ok tt, print "No data found in 'data/' folder!" sh1)
          | _ =>
              let sh2 :=
                print ("--- 2. Splitting " ++ decimal (List.length docs)
                       ++ " documents into chunks ---") sh1 in
              match split_documents docs with
              | Raise e => (Raise e, sh2)
              | Ok splits =>
                  let sh3 := print "--- 3. Saving to Pinecone Memory ---" sh2 in
                  match make_embeddings with
                  | Raise e => (Raise e, sh3)
                  | Ok _ =>
                      let sh4 := record_upload "pooya-bot" splits sh3 in
                      match from_documents splits with
                      | Raise e => (Raise e, sh4)
                      | Ok _ =>
                          (Ok tt, print "--- Done! Your Digital Twin has learned. ---" sh4)
                      end
                  end
              end
          end
      end
  end.

End Ingest.


(** * Properties *)

(** ** Text *)

Lemma chars_nonempty_bounded (n : nat) :
  forall s, (String.length s <= n)%nat -> Forall (fun ch => ch <> "") (PyStr.chars s).
Proof.
  induction n as [|n IH]; intros s Hlen.
  - destruct s; [constructor|simpl in Hlen; lia].
  - destruct s as [|c1 s1]; [constructor|].
    simpl in Hlen. cbn [PyStr.chars].
    destruct (PyStr.width c1) as [|[|[|[|[|k]]]]];
      destruct s1 as [|c2 [|c3 [|c4 s4]]];
      repeat match goal with
             | |- context [if ?b then _ else _] => destruct b
             end;
      constructor; try discriminate; apply IH; simpl in *; lia.
Qed.

Lemma chars_nonempty (s : string) : Forall (fun ch => ch <> "") (PyStr.chars s).
Proof. apply (@chars_nonempty_bounded (String.length s)). apply Nat.le_refl. Qed.

Lemma lstrip_chars_space (cs : list string) :
  forallb PyStr.space_char (PyStr.lstrip_chars cs) = forallb PyStr.space_char cs.
Proof.
  induction cs as [|ch cs IH]; simpl; [reflexivity|].
  destruct (PyStr.space_char ch) eqn:E; simpl.
  - exact IH.
  - rewrite E. reflexivity.
Qed.

Lemma rstrip_chars_nil_iff (cs : list string) :
  PyStr.rstrip_chars cs = [] <-> forallb PyStr.space_char cs = true.
Proof.
  induction cs as [|ch cs IH]; simpl.
  - split; reflexivity.
  - destruct (PyStr.rstrip_chars cs) eqn:R.
    + destruct (PyStr.space_char ch); simpl.
      * split; intros _; [apply IH|]; reflexivity.
      * split; discriminate.
    + split; [discriminate|].
      intros H. apply andb_true_iff in H as [_ H].
      apply IH in H. discriminate.
Qed.

Lemma lstrip_chars_keeps (P : string -> Prop) (cs : list string) :
  Forall P cs -> Forall P (PyStr.lstrip_chars cs).
Proof.
  induction 1 as [|ch cs Hch Hcs IH]; simpl; [constructor|].
  destruct (PyStr.space_char ch); [exact IH|constructor; assumption].
Qed.

Lemma rstrip_chars_keeps (P : string -> Prop) (cs : list string) :
  Forall P cs -> Forall P (PyStr.rstrip_chars cs).
Proof.
  induction 1 as [|ch cs Hch Hcs IH]; simpl; [constructor|].
  destruct (PyStr.rstrip_chars cs).
  - destruct (PyStr.space_char ch); constructor; [assumption|constructor].
  - constructor; assumption.
Qed.

Lemma concat_empty_iff (cs : list string) :
  Forall (fun ch => ch <> "") cs -> (String.concat "" cs = "" <-> cs = []).
Proof.
  intros Hne. split; [|intros ->; reflexivity].
  destruct Hne as [|ch cs Hch _]; [reflexivity|].
  intros H. exfalso. apply Hch.
  destruct cs; simpl in H; [exact H|].
  destruct ch; [reflexivity|discriminate].
Qed.

Lemma strip_empty_iff (s : string) :
  PyStr.strip s = EmptyString <-> whitespace_only s = true.
Proof.
  unfold PyStr.strip, whitespace_only.
  rewrite concat_empty_iff
    by (apply rstrip_chars_keeps, lstrip_chars_keeps, chars_nonempty).
  rewrite rstrip_chars_nil_iff, lstrip_chars_space. reflexivity.
Qed.

Lemma truthy_false_iff (s : string) : PyStr.truthy s = false <-> s = EmptyString.
Proof. destruct s; simpl; split; congruence. Qed.

(** The guard of [handle_message] is true exactly on blank texts. *)
Lemma guard_blank (text : string) :
  negb (PyStr.truthy text) || negb (PyStr.truthy (PyStr.strip text)) = true
  <-> whitespace_only text = true.
Proof.
  rewrite orb_true_iff, !negb_true_iff, !truthy_false_iff, strip_empty_iff.
  split.
  - intros [->|H]; [reflexivity|exact H].
  - intros H. right. exact H.
Qed.

Lemma append_nonempty_l (a b : string) : a <> EmptyString -> a ++ b <> EmptyString.
Proof. destruct a; simpl; [congruence|discriminate]. Qed.

(** ** The tools *)

(** C3. Whatever the query, when the memory search or the GitHub lookup
    raises an exception inside a tool call, the tool does not propagate it:
    it returns the text "Error reading memory: <cause>", respectively
    "Error connecting to GitHub: <cause>"; and neither tool ever raises. *)
Theorem tool_failure_becomes_text
    (retriever_invoke : string -> Outcome (list Document))
    (get_repos : Outcome (list Repository))
    (query : string) (e : Exn) :
  (retriever_invoke query = Raise e ->
     check_my_memory retriever_invoke query
     = Ok ("Error reading memory: " ++ exn_text e))
  /\ (get_repos = Raise e ->
     check_github_activity get_repos query
     = Ok ("Error connecting to GitHub: " ++ exn_text e))
  /\ (exists text, check_my_memory retriever_invoke query = Ok text)
  /\ (exists text, check_github_activity get_repos query = Ok text).
Proof.
  unfold check_my_memory, check_github_activity.
  repeat split.
  - intros ->. reflexivity.
  - intros ->. reflexivity.
  - unfold otry, obind.
    destruct (retriever_invoke query) as [[|d docs]|e']; eexists; reflexivity.
  - unfold otry, obind.
    destruct get_repos as [repos|e']; [|eexists; reflexivity].
    destruct (map repo_line (firstn 3 repos)); eexists; reflexivity.
Qed.

Lemma tool_failure_becomes_text_witness :
  check_my_memory (fun _ => Raise (mkExn "ConnectionError" "pinecone unreachable"))
                  "resume"
  = Ok "Error reading memory: pinecone unreachable"
  /\ check_github_activity (Raise (mkExn "BadCredentialsException" "401"))
                           "latest code"
     = Ok "Error connecting to GitHub: 401".
Proof.
  pose proof (tool_failure_becomes_text
                (fun _ => Raise (mkExn "ConnectionError" "pinecone unreachable"))
                (Raise (mkExn "BadCredentialsException" "401"))
                "resume"
                (mkExn "ConnectionError" "pinecone unreachable")) as [Hm _].
  pose proof (tool_failure_becomes_text
                (fun _ => Ok [])
                (Raise (mkExn "BadCredentialsException" "401"))
                "latest code"
                (mkExn "BadCredentialsException" "401")) as [_ [Hg _]].
  split.
  - apply Hm. reflexivity.
  - apply Hg. reflexivity.
Defined.

(** C10. Whatever the query, a tool whose backend succeeds but finds
    nothing answers with a fixed text that is not empty: the memory tool
    with "No specific personal memory found." when retrieval yields no
    document, the GitHub tool with "No recent public repositories found."
    when no repository is listed. *)
Theorem tool_nothing_found_text
    (retriever_invoke : string -> Outcome (list Document))
    (get_repos : Outcome (list Repository))
    (query : string) :
  (retriever_invoke query = Ok [] ->
     check_my_memory retriever_invoke query = Ok "No specific personal memory found.")
  /\ (get_repos = Ok [] ->
     check_github_activity get_repos query = Ok "No recent public repositories found.")
  /\ "No specific personal memory found." <> ""
  /\ "No recent public repositories found." <> "".
Proof.
  unfold check_my_memory, check_github_activity.
  repeat split; try discriminate.
  - intros ->. reflexivity.
  - intros ->. reflexivity.
Qed.

Lemma tool_nothing_found_text_witness :
  check_my_memory (fun _ => Ok []) "favourite editor"
  = Ok "No specific personal memory found."
  /\ check_github_activity (Ok []) "favourite editor"
     = Ok "No recent public repositories found.".
Proof.
  destruct (tool_nothing_found_text (fun _ => Ok []) (Ok []) "favourite editor")
    as [Hm [Hg _]].
  split; [apply Hm | apply Hg]; reflexivity.
Defined.

(** ** Answer extraction *)

Lemma py_repr_list_nonempty (items : list PyVal) : py_repr (VList items) <> "".
Proof. simpl. discriminate. Qed.

(** C4, as the code has it. Answer extraction is a total function of the
    terminal message's content: a plain string is returned as it is; a
    non-empty list whose first segment is a mapping with a "text" entry
    yields that entry; any other non-empty list yields the rendering
    [str(content)] of the whole list, which is not empty; every other
    content (the empty list, [None], a number, a mapping) yields the
    generic "couldn't formulate a text response" text, which is not
    empty. *)
Theorem text_extraction_cases :
  (forall s, text_extraction (VStr s) = VStr s)
  /\ (forall entries rest text,
        dict_get entries "text" = Some text ->
        text_extraction (VList (VDict entries :: rest)) = text)
  /\ (forall first rest,
        has_text first = false ->
        text_extraction (VList (first :: rest))
        = VStr (py_repr (VList (first :: rest)))
        /\ py_repr (VList (first :: rest)) <> "")
  /\ text_extraction (VList []) = VStr no_text_reply
  /\ text_extraction VNone = VStr no_text_reply
  /\ (forall b, text_extraction (VBool b) = VStr no_text_reply)
  /\ (forall z, text_extraction (VInt z) = VStr no_text_reply)
  /\ (forall entries, text_extraction (VDict entries) = VStr no_text_reply)
  /\ no_text_reply <> "".
Proof.
  repeat split; try reflexivity; try discriminate.
  - intros entries rest text H. unfold text_extraction. rewrite H. reflexivity.
  - unfold text_extraction, has_text in *.
    destruct first as [| | | |items|entries]; try reflexivity.
    destruct (dict_get entries "text"); [discriminate|reflexivity].
Qed.

Lemma text_extraction_cases_witness :
  text_extraction (VList [VDict [("type", VStr "text"); ("text", VStr "hi there")]])
  = VStr "hi there"
  /\ text_extraction (VList [VStr "hi"; VStr "there"]) = VStr "['hi', 'there']".
Proof.
  destruct text_extraction_cases as [_ [Hdict [Hother _]]].
  split.
  - apply Hdict. reflexivity.
  - apply (Hother (VStr "hi") [VStr "there"]). reflexivity.
Defined.

(** C4 as stated fails. A content whose only segment is an image has no
    textual segment, and the reply is the rendering of the list, not the
    generic fallback; a content whose textual segment comes second yields
    the rendering of the list, not that segment. *)
Lemma text_extraction_not_first_textual_segment :
  (spec_first_textual_segment
     [VDict [("type", VStr "image_url"); ("image_url", VStr "a.png")]] = None
   /\ text_extraction
        (VList [VDict [("type", VStr "image_url"); ("image_url", VStr "a.png")]])
      = VStr "[{'type': 'image_url', 'image_url': 'a.png'}]"
   /\ text_extraction
        (VList [VDict [("type", VStr "image_url"); ("image_url", VStr "a.png")]])
      <> VStr no_text_reply)
  /\ (spec_first_textual_segment
        [VDict [("type", VStr "image_url"); ("image_url", VStr "a.png")];
         VDict [("type", VStr "text"); ("text", VStr "hi")]] = Some (VStr "hi")
      /\ text_extraction
           (VList [VDict [("type", VStr "image_url"); ("image_url", VStr "a.png")];
                   VDict [("type", VStr "text"); ("text", VStr "hi")]])
         <> VStr "hi").
Proof.
  repeat split; try reflexivity; vm_compute; discriminate.
Qed.

(** C5. Running the extraction twice on the same terminal message gives
    the same reply both times: it reads the message and changes nothing,
    neither the result state nor what the turn has done so far. *)
Theorem extract_reply_repeatable (result : AgentState) (w : World) :
  extract_reply result w = extract_reply result (snd (extract_reply result w))
  /\ snd (extract_reply result w) = w.
Proof.
  assert (H : snd (extract_reply result w) = w).
  { unfold extract_reply, bind, lift, ret.
    destruct (last_item (messages result)); reflexivity. }
  split; [rewrite H; reflexivity | exact H].
Qed.

(** ** The graph run *)

Lemma extends_refl (log : list BaseMessage) : extends log log.
Proof. exists []. rewrite app_nil_r. reflexivity. Qed.

Lemma extends_trans (a b c : list BaseMessage) :
  extends a b -> extends b c -> extends a c.
Proof.
  intros [x ->] [y ->]. exists (x ++ y)%list. rewrite app_assoc. reflexivity.
Qed.

Lemma extends_app (log added : list BaseMessage) : extends log (log ++ added)%list.
Proof. exists added. reflexivity. Qed.

Lemma last_item_snoc {A} (xs : list A) (x : A) : last_item (xs ++ [x])%list = Ok x.
Proof. unfold last_item. rewrite rev_app_distr. reflexivity. Qed.

(** The routing decision on a log that ends with an assistant message. *)
Lemma should_continue_assistant
    (log : list BaseMessage) (content : PyVal) (tool_calls : list ToolCall) :
  should_continue {| messages := (log ++ [AIMessage content tool_calls])%list |}
  = Ok (match tool_calls with [] => END | _ => to_tools end).
Proof.
  unfold should_continue. simpl messages. rewrite last_item_snoc.
  destruct tool_calls; reflexivity.
Qed.

Section Run.

Variable llm_with_tools_invoke : list BaseMessage -> Outcome AIResponse.
Variable ToolNode_invoke : AgentState -> Outcome (list BaseMessage).

Local Abbreviation run := (run_from llm_with_tools_invoke ToolNode_invoke).
Local Abbreviation invoke := (app_graph_invoke llm_with_tools_invoke ToolNode_invoke).
Local Abbreviation reply := (compose_reply llm_with_tools_invoke ToolNode_invoke).
(** The handler with a Telegram API that accepts its calls. *)
Local Abbreviation handle :=
  (handle_message llm_with_tools_invoke ToolNode_invoke telegram_ok).

(** One step at [agent]. *)
Lemma run_agent_step (steps : nat) (state : AgentState) (w : World) :
  run (S steps) agent state w =
  match llm_with_tools_invoke (messages state) with
  | Raise e => (Raise e, record_model_call (messages state) w)
  | Ok r =>
      let state' :=
        {| messages := (messages state ++ [AIMessage (ai_content r) (ai_tool_calls r)])%list |} in
      match ai_tool_calls r with
      | [] => (Ok state', record_model_call (messages state) w)
      | _ => run steps tools state' (record_model_call (messages state) w)
      end
  end.
Proof.
  cbn [run_from node_action]. unfold bind at 1. unfold chatbot_node.
  destruct (llm_with_tools_invoke (messages state)) as [r|e]; [|reflexivity].
  unfold bind, lift, workflow_edges, apply_update, add_messages. cbn [messages].
  rewrite should_continue_assistant. cbn [obind].
  destruct (ai_tool_calls r); reflexivity.
Qed.

(** One step at [tools]. *)
Lemma run_tools_step (steps : nat) (state : AgentState) (w : World) :
  run (S steps) tools state w =
  match ToolNode_invoke state with
  | Raise e => (Raise e, record_tool_run state w)
  | Ok msgs =>
      run steps agent {| messages := (messages state ++ msgs)%list |}
          (record_tool_run state w)
  end.
Proof.
  cbn [run_from node_action]. unfold bind at 1. unfold tools_node.
  destruct (ToolNode_invoke state) as [msgs|e]; reflexivity.
Qed.

Lemma run_zero (node : Node) (state : AgentState) (w : World) :
  run 0 node state w = (Raise GraphRecursionError, w).
Proof. reflexivity. Qed.

(** The model is invoked at most [model_budget] times. *)
Lemma run_model_calls_le (steps : nat) :
  forall node state w,
    List.length (model_calls (snd (run steps node state w)))
    <= List.length (model_calls w) + model_budget node steps.
Proof.
  induction steps as [|n IH]; intros node state w.
  - rewrite run_zero. simpl. lia.
  - destruct node.
    + rewrite run_agent_step.
      assert (Hlog : List.length (model_calls (record_model_call (messages state) w))
                     = S (List.length (model_calls w))).
      { simpl. rewrite length_app. simpl. lia. }
      assert (Hb : model_budget agent (S n) = S (model_budget tools n)) by reflexivity.
      rewrite Hb.
      destruct (llm_with_tools_invoke (messages state)) as [r|e].
      * cbv zeta. destruct (ai_tool_calls r).
        -- cbn [snd]. lia.
        -- etransitivity; [apply IH|]. lia.
      * cbn [snd]. lia.
    + rewrite run_tools_step.
      assert (Hb : model_budget tools (S n) = model_budget agent n) by reflexivity.
      rewrite Hb. clear Hb.
      destruct (ToolNode_invoke state) as [msgs|e].
      * etransitivity; [apply IH|]. apply Nat.le_refl.
      * apply Nat.le_add_r.
Qed.

(** Such a run uses up its steps and stops with [GraphRecursionError]. *)
Lemma run_exhausts (Hm : always_requests_tools llm_with_tools_invoke)
    (Ht : tools_always_answer ToolNode_invoke)
    (steps : nat) :
  forall node state w,
    fst (run steps node state w) = Raise GraphRecursionError
    /\ List.length (model_calls (snd (run steps node state w)))
       = List.length (model_calls w) + model_budget node steps.
Proof.
  induction steps as [|n IH]; intros node state w.
  - rewrite run_zero. destruct node; simpl; split; (reflexivity || lia).
  - destruct node.
    + rewrite run_agent_step.
      destruct (Hm (messages state)) as [r [-> Hr]]. cbv zeta.
      destruct (ai_tool_calls r) as [|c cs] eqn:E; [congruence|].
      destruct (IH tools
                  {| messages := (messages state ++ [AIMessage (ai_content r) (c :: cs)])%list |}
                  (record_model_call (messages state) w)) as [H1 H2].
      split; [exact H1|]. rewrite H2. simpl model_calls. rewrite length_app.
      change (model_budget agent (S n)) with (S (model_budget tools n)).
      simpl. lia.
    + rewrite run_tools_step.
      destruct (Ht state) as [msgs ->].
      destruct (IH agent {| messages := (messages state ++ msgs)%list |}
                  (record_tool_run state w)) as [H1 H2].
      split; [exact H1|]. rewrite H2. reflexivity.
Qed.

(** A run sends nothing to the chat and logs nothing. *)
Lemma run_quiet (steps : nat) :
  forall node state w,
    outbox (snd (run steps node state w)) = outbox w
    /\ error_log (snd (run steps node state w)) = error_log w.
Proof.
  induction steps as [|n IH]; intros node state w.
  - rewrite run_zero. split; reflexivity.
  - destruct node.
    + rewrite run_agent_step.
      destruct (llm_with_tools_invoke (messages state)) as [r|e]; [|split; reflexivity].
      cbv zeta. destruct (ai_tool_calls r); [split; reflexivity|].
      destruct (IH tools
                  {| messages := (messages state ++ [AIMessage (ai_content r) (t :: l)])%list |}
                  (record_model_call (messages state) w)) as [H1 H2].
      rewrite H1, H2. split; reflexivity.
    + rewrite run_tools_step.
      destruct (ToolNode_invoke state) as [msgs|e]; [|split; reflexivity].
      destruct (IH agent {| messages := (messages state ++ msgs)%list |}
                  (record_tool_run state w)) as [H1 H2].
      rewrite H1, H2. split; reflexivity.
Qed.

(** The snapshots a run hands to the model: each one is the log the run
    started from with messages added, each extends the one before, and
    the final log of a run that returns extends them all. *)
Lemma run_snapshots (steps : nat) :
  forall node state w,
  exists snaps,
    model_calls (snd (run steps node state w)) = (model_calls w ++ snaps)%list
    /\ Forall (extends (messages state)) snaps
    /\ Sorted extends snaps
    /\ (node = agent -> steps <> 0 -> hd_error snaps = Some (messages state))
    /\ (forall final,
          fst (run steps node state w) = Ok final ->
          extends (messages state) (messages final)
          /\ Forall (fun s => extends s (messages final)) snaps).
Proof.
  induction steps as [|n IH]; intros node state w.
  - exists []. rewrite run_zero. cbn [fst snd]. rewrite app_nil_r.
    repeat split; try constructor; try congruence; discriminate.
  - destruct node.
    + rewrite run_agent_step.
      destruct (llm_with_tools_invoke (messages state)) as [r|e].
      * cbv zeta.
        set (state' := {| messages := (messages state ++
                            [AIMessage (ai_content r) (ai_tool_calls r)])%list |}).
        destruct (ai_tool_calls r) as [|c cs] eqn:E.
        -- exists [messages state]. cbn [fst snd].
           repeat split; try reflexivity.
           ++ constructor; [apply extends_refl|constructor].
           ++ repeat constructor.
           ++ injection H as <-. apply extends_app.
           ++ injection H as <-. constructor; [apply extends_app|constructor].
        -- destruct (IH tools state' (record_model_call (messages state) w))
             as [snaps [Hlog [Hall [Hsorted [_ Hfinal]]]]].
           assert (Hstep : extends (messages state) (messages state'))
             by apply extends_app.
           exists (messages state :: snaps).
           split; [|split; [|split; [|split]]].
           ++ rewrite Hlog. simpl model_calls. rewrite <- app_assoc. reflexivity.
           ++ constructor; [apply extends_refl|].
              eapply Forall_impl; [|exact Hall].
              intros s Hs. eapply extends_trans; eassumption.
           ++ constructor; [exact Hsorted|].
              destruct snaps as [|s snaps]; constructor.
              inversion Hall; subst. eapply extends_trans; eassumption.
           ++ reflexivity.
           ++ intros final Hf. destruct (Hfinal final Hf) as [H1 H2].
              split; [eapply extends_trans; eassumption|].
              constructor; [eapply extends_trans; eassumption|exact H2].
      * exists [messages state]. cbn [fst snd].
        repeat split; try reflexivity; try discriminate.
        -- constructor; [apply extends_refl|constructor].
        -- repeat constructor.
    + rewrite run_tools_step.
      destruct (ToolNode_invoke state) as [msgs|e].
      * set (state' := {| messages := (messages state ++ msgs)%list |}).
        destruct (IH agent state' (record_tool_run state w))
          as [snaps [Hlog [Hall [Hsorted [_ Hfinal]]]]].
        assert (Hstep : extends (messages state) (messages state'))
          by apply extends_app.
        exists snaps.
        split; [|split; [|split; [|split]]].
        -- exact Hlog.
        -- eapply Forall_impl; [|exact Hall].
           intros s Hs. eapply extends_trans; eassumption.
        -- exact Hsorted.
        -- discriminate.
        -- intros final Hf. destruct (Hfinal final Hf) as [H1 H2].
           split; [eapply extends_trans; eassumption|exact H2].
      * exists []. cbn [fst snd]. simpl model_calls. rewrite app_nil_r.
        repeat split; try constructor; try discriminate.
Qed.

(** What [compose_reply] returns, by what the graph run did. *)
Lemma reply_cases (text : string) (w : World) :
  match invoke {| messages := seed_messages text |} 10 w with
  | (Raise e, w1) =>
      reply text w
      = (Ok (VStr internal_error_reply),
         record_error ("Error processing message: " ++ exn_text e) w1)
  | (Ok result, w1) =>
      match last_item (messages result) with
      | Ok final_message =>
          reply text w = (Ok (text_extraction (content_of final_message)), w1)
      | Raise e =>
          reply text w
          = (Ok (VStr internal_error_reply),
             record_error ("Error processing message: " ++ exn_text e) w1)
      end
  end.
Proof.
  unfold compose_reply, try_except, extract_reply, bind, lift, ret, logger_error.
  destruct (invoke {| messages := seed_messages text |} 10 w) as [[result|e] w1].
  - destruct (last_item (messages result)); reflexivity.
  - reflexivity.
Qed.

(** The reply is always computed: nothing is raised past the [except]. *)
Lemma reply_never_raises (text : string) (w : World) :
  exists bot_reply, fst (reply text w) = Ok bot_reply.
Proof.
  pose proof (reply_cases text w) as H.
  destruct (invoke {| messages := seed_messages text |} 10 w) as [[result|e] w1].
  - destruct (last_item (messages result)); rewrite H; eexists; reflexivity.
  - rewrite H. eexists; reflexivity.
Qed.

(** Composing the reply invokes the model as the graph run does. *)
Lemma reply_model_calls (text : string) (w : World) :
  model_calls (snd (reply text w))
  = model_calls (snd (invoke {| messages := seed_messages text |} 10 w)).
Proof.
  pose proof (reply_cases text w) as H.
  destruct (invoke {| messages := seed_messages text |} 10 w) as [[result|e] w1].
  - destruct (last_item (messages result)); rewrite H; reflexivity.
  - rewrite H. reflexivity.
Qed.

(** The handler on a text that passes its guard. *)
Lemma handle_nonblank (text : string) (chat_id : Z) (w : World) :
  whitespace_only text = false ->
  handle (Some text) chat_id w =
  match reply text (record_bot_call (SendChatAction chat_id "typing") w) with
  | (Ok bot_reply, w1) => (Ok tt, record_bot_call (SendMessage chat_id bot_reply) w1)
  | (Raise e, w1) => (Raise e, w1)
  end.
Proof.
  intros Hnb. unfold handle_message.
  destruct (negb (PyStr.truthy text) || negb (PyStr.truthy (PyStr.strip text))) eqn:G.
  - apply guard_blank in G. congruence.
  - reflexivity.
Qed.

(** ** One turn *)

(** C7. An absent, empty or whitespace-only user text (Unicode whitespace
    included) is turned away before the graph runs: the handler invokes
    neither the model nor the tool node, and its one Telegram call sends
    "Please send a valid text message."; the outcome of the handler is
    the outcome of that call. *)
Theorem blank_text_rejected
    (bot : Bot) (user_text : option string) (chat_id : Z) (w : World) :
  blank user_text ->
  handle_message llm_with_tools_invoke ToolNode_invoke bot user_text chat_id w
  = (bot (SendMessage chat_id (VStr "Please send a valid text message.")),
     record_bot_call (SendMessage chat_id (VStr "Please send a valid text message.")) w)
  /\ model_calls
       (snd (handle_message llm_with_tools_invoke ToolNode_invoke bot user_text chat_id w))
     = model_calls w
  /\ tool_runs
       (snd (handle_message llm_with_tools_invoke ToolNode_invoke bot user_text chat_id w))
     = tool_runs w
  /\ outbox
       (snd (handle_message llm_with_tools_invoke ToolNode_invoke bot user_text chat_id w))
     = (outbox w ++ [SendMessage chat_id (VStr "Please send a valid text message.")])%list.
Proof.
  intros Hb.
  assert (H : handle_message llm_with_tools_invoke ToolNode_invoke bot user_text chat_id w
              = (bot (SendMessage chat_id (VStr invalid_text_reply)),
                 record_bot_call (SendMessage chat_id (VStr invalid_text_reply)) w)).
  { destruct user_text as [text|]; [|reflexivity].
    unfold handle_message. simpl in Hb. apply guard_blank in Hb. rewrite Hb.
    reflexivity. }
  rewrite H. repeat split.
Qed.

(** C8. The step after the model is decided by the shape of its answer
    alone: on a log ending with an assistant message, [should_continue]
    routes to the tools exactly when that message has tool calls, whatever
    its content; and the run, after a model answer, goes on to the tool
    node when there are tool calls and otherwise returns with that answer
    as the last message. *)
Theorem routing_by_tool_calls :
  (forall log content tool_calls,
      (should_continue {| messages := (log ++ [AIMessage content tool_calls])%list |}
       = Ok to_tools <-> tool_calls <> [])
      /\ (should_continue {| messages := (log ++ [AIMessage content tool_calls])%list |}
          = Ok END <-> tool_calls = []))
  /\ (forall log log' content content' tool_calls,
         should_continue {| messages := (log ++ [AIMessage content tool_calls])%list |}
         = should_continue {| messages := (log' ++ [AIMessage content' tool_calls])%list |})
  /\ (forall steps state w r,
         llm_with_tools_invoke (messages state) = Ok r ->
         let answer := AIMessage (ai_content r) (ai_tool_calls r) in
         let state' := {| messages := (messages state ++ [answer])%list |} in
         let w' := record_model_call (messages state) w in
         (ai_tool_calls r = [] ->
            run (S steps) agent state w = (Ok state', w')
            /\ last_item (messages state') = Ok answer)
         /\ (ai_tool_calls r <> [] ->
            run (S steps) agent state w = run steps tools state' w')).
Proof.
  split; [|split].
  - intros log content tool_calls. rewrite should_continue_assistant.
    destruct tool_calls; split; split; congruence.
  - intros. rewrite !should_continue_assistant. reflexivity.
  - intros steps state w r Hr answer state' w'. subst answer state' w'.
    rewrite run_agent_step, Hr. cbv zeta. split.
    + intros E. rewrite E. split; [reflexivity|apply last_item_snoc].
    + intros E. destruct (ai_tool_calls r); [congruence|reflexivity].
Qed.

(** C2, as the code has it. Each model invocation and each run of the
    tool node takes one of the 10 steps of the recursion limit, so a turn
    invokes the model at most 5 times (hence at most 10 times); a turn
    whose model always asks for tools invokes it exactly 5 times, runs out
    of steps, and replies with the fixed text "Sorry, I encountered an
    internal error. Please try again." instead of crashing. *)
Theorem model_invocations_bounded (text : string) (w : World) :
  List.length (model_calls (snd (reply text w))) <= List.length (model_calls w) + 5
  /\ List.length (model_calls (snd (reply text w))) <= List.length (model_calls w) + 10
  /\ (always_requests_tools llm_with_tools_invoke ->
      tools_always_answer ToolNode_invoke ->
      List.length (model_calls (snd (reply text w))) = List.length (model_calls w) + 5
      /\ fst (reply text w)
         = Ok (VStr "Sorry, I encountered an internal error. Please try again.")).
Proof.
  assert (Hle : List.length (model_calls (snd (reply text w)))
                <= List.length (model_calls w) + 5).
  { rewrite reply_model_calls. unfold app_graph_invoke.
    apply (run_model_calls_le 10 agent). }
  split; [exact Hle|]. split; [lia|].
  intros Hm Ht.
  pose proof (reply_cases text w) as Hc.
  pose proof (reply_model_calls text w) as Hn.
  unfold app_graph_invoke in Hc, Hn.
  destruct (run_exhausts Hm Ht 10 agent
              (apply_update {| messages := [] |} {| messages := seed_messages text |}) w)
    as [Hraise Hcount].
  split.
  - rewrite Hn. exact Hcount.
  - destruct (run 10 agent
                (apply_update {| messages := [] |} {| messages := seed_messages text |}) w)
      as [[result|e] w1]; cbn [fst] in Hraise; [discriminate|].
    rewrite Hc. reflexivity.
Qed.

(** C6. When an exception escapes the graph invocation (the model call
    failed), the turn ends with the fixed apology: the handler logs the
    error and sends exactly the typing action followed by "Sorry, I
    encountered an internal error. Please try again."; nothing of the
    conversation state reaches the user.  ([handle] is the handler with a
    Telegram API that accepts its calls.) *)
Theorem model_failure_gives_apology
    (text : string) (chat_id : Z) (w w1 : World) (e : Exn) :
  whitespace_only text = false ->
  invoke {| messages := seed_messages text |} 10
         (record_bot_call (SendChatAction chat_id "typing") w) = (Raise e, w1) ->
  handle (Some text) chat_id w
  = (Ok tt,
     record_bot_call
       (SendMessage chat_id
          (VStr "Sorry, I encountered an internal error. Please try again."))
       (record_error ("Error processing message: " ++ exn_text e) w1))
  /\ outbox (snd (handle (Some text) chat_id w))
     = (outbox w ++
        [SendChatAction chat_id "typing";
         SendMessage chat_id
           (VStr "Sorry, I encountered an internal error. Please try again.")])%list.
Proof.
  intros Hnb Hrun.
  pose proof (reply_cases text (record_bot_call (SendChatAction chat_id "typing") w)) as Hc.
  assert (Hout : outbox w1 = (outbox w ++ [SendChatAction chat_id "typing"])%list).
  { change w1 with (snd (@Raise AgentState e, w1)). rewrite <- Hrun.
    unfold app_graph_invoke.
    destruct (run_quiet 10 agent
                (apply_update {| messages := [] |} {| messages := seed_messages text |})
                (record_bot_call (SendChatAction chat_id "typing") w)) as [-> _].
    reflexivity. }
  rewrite Hrun in Hc.
  rewrite (handle_nonblank _ _ _ Hnb), Hc.
  split; [reflexivity|].
  cbn [snd]. simpl outbox. rewrite Hout, <- app_assoc. reflexivity.
Qed.

(** C9. Every turn starts from a fresh conversation, made of the system
    prompt and the user message and nothing from earlier turns, and the
    log only grows: the first snapshot handed to the model is exactly
    these two messages, whatever happened before; each later snapshot is
    the one before it with messages added at the end; a node's update
    leaves the log it is applied to as a prefix; and the log a run returns
    extends the log it started from.  ([handle] is the handler with a
    Telegram API that accepts its calls.) *)
Theorem fresh_state_and_growing_log (text : string) (chat_id : Z) (w : World) :
  whitespace_only text = false ->
  (exists snaps,
      model_calls (snd (handle (Some text) chat_id w)) = (model_calls w ++ snaps)%list
      /\ hd_error snaps
         = Some [SystemMessage (VStr system_message); HumanMessage (VStr text)]
      /\ Sorted extends snaps)
  /\ (forall state update,
         extends (messages state) (messages (apply_update state update)))
  /\ (forall steps node state w0 final,
         fst (run steps node state w0) = Ok final ->
         extends (messages state) (messages final)).
Proof.
  intros Hnb. split; [|split].
  - rewrite (handle_nonblank _ _ _ Hnb).
    set (w0 := record_bot_call (SendChatAction chat_id "typing") w).
    pose proof (reply_model_calls text w0) as Hn.
    unfold app_graph_invoke in Hn.
    destruct (run_snapshots 10 agent
                (apply_update {| messages := [] |} {| messages := seed_messages text |}) w0)
      as [snaps [Hlog [_ [Hsorted [Hhd _]]]]].
    exists snaps. split; [|split].
    + destruct (reply_never_raises text w0) as [v Hv].
      destruct (reply text w0) as [[v'|e] w1]; cbn [fst] in Hv; [|discriminate].
      cbn [snd] in *. simpl model_calls. rewrite Hn, Hlog. reflexivity.
    + rewrite Hhd; [reflexivity|reflexivity|discriminate].
    + exact Hsorted.
  - intros state update. apply extends_app.
  - intros steps node state w0 final Hf.
    destruct (run_snapshots steps node state w0) as [snaps [_ [_ [_ [_ Hfinal]]]]].
    apply (Hfinal final Hf).
Qed.

End Run.

(** ** Concrete turns *)

(** A turn with one memory lookup: two model invocations, one run of the
    tool node in between, and the model's text as the reply. *)
Example one_lookup_turn :
  let '(bot_reply, w) :=
    compose_reply one_lookup_model memory_tool_node "hello" quiet in
  bot_reply = Ok (VStr "Pooya has no resume on file.")
  /\ List.length (model_calls w) = 2
  /\ List.length (tool_runs w) = 1
  /\ nth_error (model_calls w) 1
     = Some (seed_messages "hello" ++
             [AIMessage (VStr "") [resume_call];
              ToolMessage (VStr "No specific personal memory found.") "call_1"])%list.
Proof. vm_compute. repeat split. Qed.

Lemma blank_text_rejected_witness :
  blank (Some (" " ++ nbsp ++ ideographic_space ++ em_space ++ nl))
  /\ outbox (snd (handle_message eager_model memory_tool_node telegram_ok
                    (Some (" " ++ nbsp ++ ideographic_space ++ em_space ++ nl)) 7 quiet))
     = [SendMessage 7 (VStr "Please send a valid text message.")]
  /\ model_calls (snd (handle_message eager_model memory_tool_node telegram_ok
                         (Some (" " ++ nbsp ++ ideographic_space ++ em_space ++ nl))
                         7 quiet))
     = [].
Proof.
  assert (Hb : blank (Some (" " ++ nbsp ++ ideographic_space ++ em_space ++ nl)))
    by reflexivity.
  destruct (blank_text_rejected eager_model memory_tool_node telegram_ok
              (Some (" " ++ nbsp ++ ideographic_space ++ em_space ++ nl)) 7 quiet Hb)
    as [_ [Hm [_ Ho]]].
  split; [exact Hb|]. split; [exact Ho|exact Hm].
Defined.

Lemma routing_by_tool_calls_witness :
  run_from one_lookup_model memory_tool_node 10 agent
           {| messages := seed_messages "hello" |} quiet
  = run_from one_lookup_model memory_tool_node 9 tools
             {| messages := (seed_messages "hello" ++ [AIMessage (VStr "") [resume_call]])%list |}
             (record_model_call (seed_messages "hello") quiet).
Proof.
  destruct (routing_by_tool_calls one_lookup_model memory_tool_node) as [_ [_ Hrun]].
  destruct (Hrun 9 {| messages := seed_messages "hello" |} quiet
              {| ai_content := VStr ""; ai_tool_calls := [resume_call] |} eq_refl)
    as [_ Hgo].
  apply Hgo. discriminate.
Defined.

Lemma eager_model_always_requests_tools : always_requests_tools eager_model.
Proof. intros snapshot. eexists. split; [reflexivity|discriminate]. Qed.

Lemma memory_tool_node_always_answers : tools_always_answer memory_tool_node.
Proof. intros state. eexists. reflexivity. Qed.

Lemma model_invocations_bounded_witness :
  List.length (model_calls (snd (compose_reply eager_model memory_tool_node "hello" quiet)))
  = 5
  /\ fst (compose_reply eager_model memory_tool_node "hello" quiet)
     = Ok (VStr "Sorry, I encountered an internal error. Please try again.").
Proof.
  destruct (model_invocations_bounded eager_model memory_tool_node "hello" quiet)
    as [_ [_ H]].
  apply H.
  - intros snapshot. eexists. split; [reflexivity|discriminate].
  - intros state. eexists. reflexivity.
Defined.

(** C2 as stated fails: a model that asks for tools at every step is
    invoked 5 times in the turn, not 10. *)
Lemma always_tools_turn_stops_at_five :
  (forall snapshot, exists r,
      eager_model snapshot = Ok r /\ ai_tool_calls r <> [])
  /\ List.length
       (model_calls (snd (compose_reply eager_model memory_tool_node "hello" quiet)))
     = 5
  /\ List.length
       (model_calls (snd (compose_reply eager_model memory_tool_node "hello" quiet)))
     <> 10.
Proof.
  split; [exact eager_model_always_requests_tools|].
  split; [reflexivity|].
  vm_compute. discriminate.
Qed.

Lemma model_failure_gives_apology_witness :
  outbox (snd (handle_message failing_model memory_tool_node telegram_ok
                 (Some "hello") 7 quiet))
  = [SendChatAction 7 "typing";
     SendMessage 7 (VStr "Sorry, I encountered an internal error. Please try again.")].
Proof.
  eapply (model_failure_gives_apology failing_model memory_tool_node "hello" 7 quiet).
  - reflexivity.
  - reflexivity.
Defined.

Lemma fresh_state_and_growing_log_witness :
  let earlier :=
    snd (handle_message one_lookup_model memory_tool_node telegram_ok
           (Some "who is Pooya?") 7 quiet) in
  exists snaps,
    model_calls (snd (handle_message one_lookup_model memory_tool_node telegram_ok
                        (Some "hello") 7 earlier))
    = (model_calls earlier ++ snaps)%list
    /\ hd_error snaps
       = Some [SystemMessage (VStr system_message); HumanMessage (VStr "hello")]
    /\ Sorted extends snaps.
Proof.
  intros earlier.
  destruct (fresh_state_and_growing_log one_lookup_model memory_tool_node
              "hello" 7 earlier eq_refl) as [[snaps H] _].
  exists snaps. exact H.
Defined.

(** C1 at the input where the code departs from it: the model ends the
    turn with an empty text and no tool call; the reply composed for
    "hello" is the empty string, and that is what the handler sends. *)
Theorem empty_answer_gives_empty_reply :
  whitespace_only "hello" = false
  /\ fst (compose_reply silent_model memory_tool_node "hello" quiet) = Ok (VStr "")
  /\ outbox (snd (handle_message silent_model memory_tool_node telegram_ok
                    (Some "hello") 7 quiet))
     = [SendChatAction 7 "typing"; SendMessage 7 (VStr "")].
Proof. repeat split. Qed.

(** * Further properties of the module *)

(** ** The tools, continued *)

Lemma append_empty_inv (a b : string) : a ++ b = "" -> a = "" /\ b = "".
Proof. destruct a; simpl; [intros ->; split; reflexivity|discriminate]. Qed.

Lemma join_cons_nonempty (sep first : string) (rest : list string) :
  first <> "" -> PyStr.join sep (first :: rest) <> "".
Proof.
  intros Hf. destruct rest as [|second rest]; simpl; [exact Hf|].
  apply append_nonempty_l. exact Hf.
Qed.

Lemma repo_line_nonempty (repo : Repository) : repo_line repo <> "".
Proof. unfold repo_line. simpl. discriminate. Qed.

(** Whatever the GitHub client does and whatever the query, the text
    [check_github_activity] returns is not empty. *)
Theorem github_text_never_empty (get_repos : Outcome (list Repository)) (query : string) :
  exists text, check_github_activity get_repos query = Ok text /\ text <> "".
Proof.
  unfold check_github_activity, otry, obind.
  destruct get_repos as [repos|e].
  - destruct (map repo_line (firstn 3 repos)) as [|line lines] eqn:E.
    + eexists. split; [reflexivity|discriminate].
    + eexists. split; [reflexivity|].
      apply join_cons_nonempty.
      destruct (firstn 3 repos) as [|repo rest]; [discriminate|].
      injection E as <- _. apply repo_line_nonempty.
  - eexists. split; [reflexivity|]. simpl. discriminate.
Qed.

(** [check_github_activity] reports the first three repositories only and
    does not look at its query: more repositories after the third, or
    another query, give the same text. *)
Theorem github_first_three_only
    (repos more : list Repository) (query query' : string) :
  3 <= List.length repos ->
  check_github_activity (Ok (repos ++ more)%list) query
  = check_github_activity (Ok repos) query'.
Proof.
  intros Hlen. unfold check_github_activity, otry, obind.
  rewrite firstn_app.
  replace (3 - List.length repos) with 0 by lia.
  rewrite firstn_O, app_nil_r. reflexivity.
Qed.

Lemma github_first_three_only_witness :
  check_github_activity
    (Ok [mkRepository "PooyaBot" "https://github.com/p/PooyaBot" (Some "Telegram twin");
         mkRepository "dotfiles" "https://github.com/p/dotfiles" None;
         mkRepository "notes" "https://github.com/p/notes" (Some "");
         mkRepository "old" "https://github.com/p/old" None])
    "what is he coding?"
  = check_github_activity
      (Ok [mkRepository "PooyaBot" "https://github.com/p/PooyaBot" (Some "Telegram twin");
           mkRepository "dotfiles" "https://github.com/p/dotfiles" None;
           mkRepository "notes" "https://github.com/p/notes" (Some "")])
      "".
Proof.
  apply (github_first_three_only
           [mkRepository "PooyaBot" "https://github.com/p/PooyaBot" (Some "Telegram twin");
            mkRepository "dotfiles" "https://github.com/p/dotfiles" None;
            mkRepository "notes" "https://github.com/p/notes" (Some "")]
           [mkRepository "old" "https://github.com/p/old" None]).
  simpl. lia.
Defined.

(** [check_my_memory] returns the empty text in one case only: retrieval
    yields exactly one document and its content is empty. *)
Theorem memory_text_empty_iff
    (retriever_invoke : string -> Outcome (list Document)) (query : string) :
  check_my_memory retriever_invoke query = Ok ""
  <-> exists doc, retriever_invoke query = Ok [doc] /\ page_content doc = "".
Proof.
  unfold check_my_memory, otry, obind.
  destruct (retriever_invoke query) as [[|doc [|doc' docs]]|e].
  - split; [discriminate|]. intros [d [H _]]. discriminate.
  - simpl. split.
    + intros H. injection H as H. exists doc. split; [reflexivity|exact H].
    + intros [d [H Hd]]. injection H as <-. rewrite Hd. reflexivity.
  - split.
    + intros H. injection H as H. cbn [map PyStr.join] in H.
      apply append_empty_inv in H as [_ H]. simpl in H. discriminate.
    + intros [d [H _]]. discriminate.
  - split; [discriminate|]. intros [d [H _]]. discriminate.
Qed.

(** ** Answer extraction, continued *)

(** The extracted reply is the empty text in two cases only: the content
    is the empty string, or its first segment is a mapping whose "text"
    entry is the empty string. *)
Theorem text_extraction_empty_iff (content : PyVal) :
  text_extraction content = VStr ""
  <-> content = VStr ""
      \/ exists entries rest,
           content = VList (VDict entries :: rest)
           /\ dict_get entries "text" = Some (VStr "").
Proof.
  split.
  - destruct content as [| | |s|items|entries]; try discriminate.
    + intros H. left. exact H.
    + destruct items as [|first rest]; [discriminate|].
      destruct first as [| | | | |entries]; try discriminate.
      unfold text_extraction.
      destruct (dict_get entries "text") as [text|] eqn:E; [|discriminate].
      intros ->. right. exists entries, rest. split; reflexivity || exact E.
  - intros [->|[entries [rest [-> E]]]]; [reflexivity|].
    unfold text_extraction. rewrite E. reflexivity.
Qed.

(** ** The graph run, continued *)

Section RunMore.

Variable llm_with_tools_invoke : list BaseMessage -> Outcome AIResponse.
Variable ToolNode_invoke : AgentState -> Outcome (list BaseMessage).
Variable bot : Bot.

Local Abbreviation run := (run_from llm_with_tools_invoke ToolNode_invoke).
Local Abbreviation invoke := (app_graph_invoke llm_with_tools_invoke ToolNode_invoke).
Local Abbreviation reply := (compose_reply llm_with_tools_invoke ToolNode_invoke).
Local Abbreviation handle := (handle_message llm_with_tools_invoke ToolNode_invoke bot).

(** A run that returns ends with the model's last answer, which has no
    tool call. *)
Lemma run_returns_answer (steps : nat) :
  forall node state w final,
    fst (run steps node state w) = Ok final ->
    exists log r,
      messages final = (log ++ [AIMessage (ai_content r) []])%list
      /\ llm_with_tools_invoke log = Ok r
      /\ ai_tool_calls r = []
      /\ extends (messages state) log.
Proof.
  induction steps as [|n IH]; intros node state w final Hf.
  - rewrite run_zero in Hf. discriminate.
  - destruct node.
    + rewrite run_agent_step in Hf.
      destruct (llm_with_tools_invoke (messages state)) as [r|e] eqn:Hr;
        [|discriminate].
      cbv zeta in Hf. destruct (ai_tool_calls r) as [|c cs] eqn:E.
      * injection Hf as <-. exists (messages state), r.
        repeat split; try assumption. apply extends_refl.
      * destruct (IH _ _ _ _ Hf) as [log [r' [H1 [H2 [H3 H4]]]]].
        exists log, r'. repeat split; try assumption.
        eapply extends_trans; [apply extends_app|exact H4].
    + rewrite run_tools_step in Hf.
      destruct (ToolNode_invoke state) as [msgs|e]; [|discriminate].
      destruct (IH _ _ _ _ Hf) as [log [r' [H1 [H2 [H3 H4]]]]].
      exists log, r'. repeat split; try assumption.
      eapply extends_trans; [apply extends_app|exact H4].
Qed.

(** Model invocations and runs of the tool node alternate. *)
Lemma run_counts (steps : nat) :
  forall node state w,
  exists m t,
    List.length (model_calls (snd (run steps node state w)))
    = List.length (model_calls w) + m
    /\ List.length (tool_runs (snd (run steps node state w)))
       = List.length (tool_runs w) + t
    /\ match node with
       | agent =>
           t <= m <= t + 1
           /\ (forall final, fst (run steps node state w) = Ok final -> m = t + 1)
       | tools =>
           m <= t <= m + 1
           /\ (forall final, fst (run steps node state w) = Ok final -> t = m)
       end.
Proof.
  induction steps as [|n IH]; intros node state w.
  - exists 0, 0. rewrite run_zero. cbn [fst snd].
    destruct node; repeat split; try lia; discriminate.
  - destruct node.
    + rewrite run_agent_step.
      destruct (llm_with_tools_invoke (messages state)) as [r|e].
      * cbv zeta. destruct (ai_tool_calls r) as [|c cs].
        -- exists 1, 0. cbn [fst snd]. simpl model_calls. simpl tool_runs.
           rewrite length_app. simpl. repeat split; lia.
        -- destruct (IH tools
                       {| messages := (messages state ++
                            [AIMessage (ai_content r) (c :: cs)])%list |}
                       (record_model_call (messages state) w))
             as [m [t [Hm [Ht [Hb Hs]]]]].
           exists (S m), t. rewrite Hm, Ht. simpl model_calls. simpl tool_runs.
           rewrite length_app. simpl.
           repeat split; try lia. intros final Hf. specialize (Hs final Hf). lia.
      * exists 1, 0. cbn [fst snd]. simpl model_calls. simpl tool_runs.
        rewrite length_app. simpl. repeat split; try lia; try discriminate.
    + rewrite run_tools_step.
      destruct (ToolNode_invoke state) as [msgs|e].
      * destruct (IH agent {| messages := (messages state ++ msgs)%list |}
                    (record_tool_run state w))
          as [m [t [Hm [Ht [Hb Hs]]]]].
        exists m, (S t). rewrite Hm, Ht. simpl model_calls. simpl tool_runs.
        rewrite length_app. simpl.
        repeat split; try lia. intros final Hf. specialize (Hs final Hf). lia.
      * exists 0, 1. cbn [fst snd]. simpl model_calls. simpl tool_runs.
        rewrite length_app. simpl. repeat split; try lia; try discriminate.
Qed.

(** The states the tool node is run on, in a run entered at [agent]: each
    is one that [should_continue] routed to the tools. *)
Lemma run_tool_states (steps : nat) :
  forall node state w,
  exists runs,
    tool_runs (snd (run steps node state w)) = (tool_runs w ++ runs)%list
    /\ match node with
       | agent => Forall (fun st => should_continue st = Ok to_tools) runs
       | tools =>
           runs = []
           \/ exists later,
                runs = state :: later
                /\ Forall (fun st => should_continue st = Ok to_tools) later
       end.
Proof.
  induction steps as [|n IH]; intros node state w.
  - exists []. rewrite run_zero. cbn [snd]. rewrite app_nil_r.
    destruct node; split; try reflexivity; [constructor|left; reflexivity].
  - destruct node.
    + rewrite run_agent_step.
      destruct (llm_with_tools_invoke (messages state)) as [r|e].
      * cbv zeta. destruct (ai_tool_calls r) as [|c cs].
        -- exists []. cbn [snd]. simpl tool_runs. rewrite app_nil_r.
           split; [reflexivity|constructor].
        -- set (state' := {| messages := (messages state ++
                               [AIMessage (ai_content r) (c :: cs)])%list |}).
           assert (Hroute : should_continue state' = Ok to_tools)
             by apply should_continue_assistant.
           destruct (IH tools state' (record_model_call (messages state) w))
             as [runs [Hlog Hall]].
           exists runs. split; [exact Hlog|].
           destruct Hall as [->|[later [-> Hall]]]; constructor; assumption.
      * exists []. cbn [snd]. simpl tool_runs. rewrite app_nil_r.
        split; [reflexivity|constructor].
    + rewrite run_tools_step.
      destruct (ToolNode_invoke state) as [msgs|e].
      * destruct (IH agent {| messages := (messages state ++ msgs)%list |}
                    (record_tool_run state w)) as [runs [Hlog Hall]].
        exists (state :: runs). split.
        -- rewrite Hlog. simpl tool_runs. rewrite <- app_assoc. reflexivity.
        -- right. exists runs. split; [reflexivity|exact Hall].
      * exists [state]. cbn [snd]. split; [reflexivity|].
        right. exists []. split; [reflexivity|constructor].
Qed.

(** A run that returns: its last model invocation was on the log before
    the final answer. *)
Lemma run_last_call (steps : nat) :
  forall node state w final,
    fst (run steps node state w) = Ok final ->
    exists log r earlier,
      messages final = (log ++ [AIMessage (ai_content r) []])%list
      /\ llm_with_tools_invoke log = Ok r
      /\ ai_tool_calls r = []
      /\ extends (messages state) log
      /\ model_calls (snd (run steps node state w))
         = (model_calls w ++ earlier ++ [log])%list.
Proof.
  induction steps as [|n IH]; intros node state w final Hf.
  - rewrite run_zero in Hf. discriminate.
  - destruct node.
    + rewrite run_agent_step in *.
      destruct (llm_with_tools_invoke (messages state)) as [r|e] eqn:Hr;
        [|discriminate].
      cbv zeta in *. destruct (ai_tool_calls r) as [|c cs] eqn:E.
      * injection Hf as <-. exists (messages state), r, [].
        repeat split; try assumption. apply extends_refl.
      * destruct (IH _ _ _ _ Hf) as [log [r' [earlier [H1 [H2 [H3 [H4 H5]]]]]]].
        exists log, r', (messages state :: earlier).
        repeat split; try assumption.
        -- eapply extends_trans; [apply extends_app|exact H4].
        -- rewrite H5. simpl model_calls. rewrite <- app_assoc. reflexivity.
    + rewrite run_tools_step in *.
      destruct (ToolNode_invoke state) as [msgs|e]; [|discriminate].
      destruct (IH _ _ _ _ Hf) as [log [r' [earlier [H1 [H2 [H3 [H4 H5]]]]]]].
      exists log, r', earlier. repeat split; try assumption.
      eapply extends_trans; [apply extends_app|exact H4].
Qed.

(** Composing the reply runs the tool node as the graph run does, and
    sends nothing. *)
Lemma reply_tool_runs_outbox (text : string) (w : World) :
  tool_runs (snd (reply text w))
  = tool_runs (snd (invoke {| messages := seed_messages text |} 10 w))
  /\ outbox (snd (reply text w)) = outbox w.
Proof.
  pose proof (reply_cases llm_with_tools_invoke ToolNode_invoke text w) as H.
  assert (Hq : outbox (snd (invoke {| messages := seed_messages text |} 10 w)) = outbox w)
    by apply run_quiet.
  destruct (invoke {| messages := seed_messages text |} 10 w) as [[result|e] w1].
  - destruct (last_item (messages result)); rewrite H; split; (reflexivity || exact Hq).
  - rewrite H. split; [reflexivity|exact Hq].
Qed.



(** A state routed to the tools ends with an assistant message that has
    at least one tool call. *)
Lemma should_continue_tools_inv (state : AgentState) :
  should_continue state = Ok to_tools ->
  exists log content call calls,
    messages state = (log ++ [AIMessage content (call :: calls)])%list.
Proof.
  unfold should_continue, last_item, obind.
  destruct (rev (messages state)) as [|last_message earlier] eqn:E; [discriminate|].
  assert (Hm : messages state = (rev earlier ++ [last_message])%list).
  { rewrite <- (rev_involutive (messages state)), E. reflexivity. }
  destruct last_message as [c|c|c tcs|c id]; try discriminate.
  destruct tcs as [|call calls]; [discriminate|].
  intros _. exists (rev earlier), c, call, calls. exact Hm.
Qed.

(** ** One turn, continued *)

(** When the model answers the opening conversation without asking for a
    tool, the reply is the text extracted from that answer; the model was
    invoked once, on the system prompt and the user text, and nothing
    else happened: no tool run, no error logged. *)
Theorem direct_answer_turn (text : string) (w : World) (r : AIResponse) :
  llm_with_tools_invoke (seed_messages text) = Ok r ->
  ai_tool_calls r = [] ->
  reply text w
  = (Ok (text_extraction (ai_content r)), record_model_call (seed_messages text) w).
Proof.
  intros Hr Htc.
  pose proof (reply_cases llm_with_tools_invoke ToolNode_invoke text w) as H.
  unfold app_graph_invoke in H.
  change (apply_update {| messages := [] |} {| messages := seed_messages text |})
    with {| messages := seed_messages text |} in H.
  rewrite run_agent_step in H. cbn [messages] in H. rewrite Hr in H.
  cbv zeta in H. rewrite Htc in H. cbn [messages] in H.
  rewrite last_item_snoc in H. exact H.
Qed.

(** When the graph invocation returns, the last message of the result is
    the answer the model gave on the messages before it, an assistant
    message without tool calls; so [result["messages"][-1]] is always
    there, and the log before it extends the input. *)
Theorem invoke_returns_model_answer
    (input : AgentState) (recursion_limit : nat) (w : World) (result : AgentState) :
  fst (invoke input recursion_limit w) = Ok result ->
  exists log r,
    messages result = (log ++ [AIMessage (ai_content r) []])%list
    /\ llm_with_tools_invoke log = Ok r
    /\ ai_tool_calls r = []
    /\ extends (messages input) log
    /\ last_item (messages result) = Ok (AIMessage (ai_content r) []).
Proof.
  intros Hf. unfold app_graph_invoke in Hf.
  destruct (run_returns_answer _ _ _ _ Hf) as [log [r [H1 [H2 [H3 H4]]]]].
  exists log, r. repeat split; try assumption.
  rewrite H1. apply last_item_snoc.
Qed.

(** In a turn, model invocations and runs of the tool node alternate,
    starting with the model: the tool node runs as often as the model is
    invoked, or once less, and at most 5 times each; when the graph
    invocation returns, the model was invoked exactly once more than the
    tool node ran, so the tools ran at most 4 times. *)
Theorem turn_alternates (text : string) (w : World) :
  exists m t,
    List.length (model_calls (snd (reply text w))) = List.length (model_calls w) + m
    /\ List.length (tool_runs (snd (reply text w))) = List.length (tool_runs w) + t
    /\ t <= m <= t + 1
    /\ m <= 5
    /\ (forall result,
          fst (invoke {| messages := seed_messages text |} 10 w) = Ok result ->
          m = t + 1 /\ t <= 4).
Proof.
  destruct (reply_tool_runs_outbox text w) as [Ht _].
  pose proof (reply_model_calls llm_with_tools_invoke ToolNode_invoke text w) as Hm.
  unfold app_graph_invoke in *.
  pose proof (run_model_calls_le llm_with_tools_invoke ToolNode_invoke 10 agent
                (apply_update {| messages := [] |} {| messages := seed_messages text |}) w)
    as Hle.
  change (model_budget agent 10) with 5 in Hle.
  destruct (run_counts 10 agent
              (apply_update {| messages := [] |} {| messages := seed_messages text |}) w)
    as [m [t [Hm' [Ht' [Hb Hs]]]]].
  exists m, t. rewrite Hm, Ht, Hm', Ht'. rewrite Hm' in Hle.
  repeat split; try lia.
  - specialize (Hs result H). lia.
  - specialize (Hs result H). lia.
Qed.

(** The tool node is run only on pending tool calls: every state it is
    handed in a turn ends with an assistant message that has at least one
    tool call. *)
Theorem tools_run_on_tool_calls_only (text : string) (w : World) :
  exists runs,
    tool_runs (snd (reply text w)) = (tool_runs w ++ runs)%list
    /\ Forall (fun st =>
                 exists log content call calls,
                   messages st = (log ++ [AIMessage content (call :: calls)])%list)
              runs.
Proof.
  destruct (reply_tool_runs_outbox text w) as [Ht _]. unfold app_graph_invoke in Ht.
  destruct (run_tool_states 10 agent
              (apply_update {| messages := [] |} {| messages := seed_messages text |}) w)
    as [runs [Hlog Hall]].
  exists runs. split; [rewrite Ht; exact Hlog|].
  eapply Forall_impl; [|exact Hall].
  intros st. apply should_continue_tools_inv.
Qed.


(** The reply of a turn is one of two things. Either the graph
    invocation returned: the reply is the text extracted from the answer,
    without tool calls, that the model gave at its last invocation of the
    turn, on a log that extends the system prompt and the user's text; and
    nothing is logged. Or an exception escaped the graph invocation: the
    reply is the fixed apology and exactly one line "Error processing
    message: <cause>" is logged for it. *)
Theorem reply_is_answer_or_apology (text : string) (w : World) :
  (exists log r earlier,
      extends (seed_messages text) log
      /\ model_calls (snd (reply text w)) = (model_calls w ++ earlier ++ [log])%list
      /\ llm_with_tools_invoke log = Ok r
      /\ ai_tool_calls r = []
      /\ fst (reply text w) = Ok (text_extraction (ai_content r))
      /\ error_log (snd (reply text w)) = error_log w)
  \/ (exists e,
         fst (invoke {| messages := seed_messages text |} 10 w) = Raise e
         /\ fst (reply text w) = Ok (VStr internal_error_reply)
         /\ error_log (snd (reply text w))
            = (error_log w ++ [("Error processing message: " ++ exn_text e)%string])%list).
Proof.
  pose proof (reply_cases llm_with_tools_invoke ToolNode_invoke text w) as H.
  assert (Hq : error_log (snd (invoke {| messages := seed_messages text |} 10 w))
               = error_log w) by apply run_quiet.
  destruct (invoke {| messages := seed_messages text |} 10 w) as [[result|e] w1] eqn:Hrun.
  - assert (Hf : fst (invoke {| messages := seed_messages text |} 10 w) = Ok result)
      by (rewrite Hrun; reflexivity).
    unfold app_graph_invoke in Hf, Hrun.
    destruct (run_last_call _ _ _ _ Hf) as [log [r [earlier [H1 [H2 [H3 [H4 H5]]]]]]].
    rewrite Hrun in H5. cbn [snd] in H5.
    rewrite H1, last_item_snoc in H. left. exists log, r, earlier.
    rewrite H. cbn [fst snd] in *. repeat split; assumption.
  - right. exists e. rewrite H. cbn [fst snd] in *. simpl error_log. rewrite Hq.
    repeat split; reflexivity.
Qed.

(** Every snapshot handed to the model in a turn starts with the system
    prompt and the user's text, in that order. *)
Theorem every_snapshot_starts_with_seed (text : string) (w : World) :
  exists snaps,
    model_calls (snd (reply text w)) = (model_calls w ++ snaps)%list
    /\ Forall (fun snapshot =>
                 exists later,
                   snapshot = SystemMessage (VStr system_message)
                              :: HumanMessage (VStr text) :: later)
              snaps.
Proof.
  pose proof (reply_model_calls llm_with_tools_invoke ToolNode_invoke text w) as Hm.
  unfold app_graph_invoke in Hm.
  destruct (run_snapshots llm_with_tools_invoke ToolNode_invoke 10 agent
              (apply_update {| messages := [] |} {| messages := seed_messages text |}) w)
    as [snaps [Hlog [Hall _]]].
  exists snaps. split; [rewrite Hm; exact Hlog|].
  eapply Forall_impl; [|exact Hall].
  intros s [added ->]. exists added. reflexivity.
Qed.

End RunMore.

(** ** The memory populator *)

(** [ingest] writes to the vector store at most once, into the index
    "pooya-bot", and only the chunks of a non-empty document list made of
    the PDF documents followed by the text documents; when both loaders
    find nothing it returns normally after printing "No data found in
    'data/' folder!", without splitting or uploading anything. *)
Theorem ingest_uploads_at_most_once
    (pdf_loader_load txt_loader_load : Outcome (list Document))
    (split_documents : list Document -> Outcome (list Document))
    (make_embeddings : Outcome unit)
    (from_documents : list Document -> Outcome unit)
    (sh : Shell) :
  let done :=
    ingest pdf_loader_load txt_loader_load split_documents make_embeddings
           from_documents sh in
  (exists ups,
      uploads (snd done) = (uploads sh ++ ups)%list
      /\ (ups = []
          \/ exists pdf_docs txt_docs splits,
               pdf_loader_load = Ok pdf_docs
               /\ txt_loader_load = Ok txt_docs
               /\ (pdf_docs ++ txt_docs)%list <> []
               /\ split_documents (pdf_docs ++ txt_docs)%list = Ok splits
               /\ ups = [("pooya-bot", splits)]))
  /\ (pdf_loader_load = Ok [] -> txt_loader_load = Ok [] ->
      done = (Ok tt,
              {| stdout := (stdout sh ++ ["--- 1. Loading Your 'Brain' (Data) ---";
                                          "No data found in 'data/' folder!"])%list;
                 uploads := uploads sh |})).
Proof.
  cbv zeta. split.
  - unfold ingest.
    destruct pdf_loader_load as [pdf_docs|e];
      [|exists []; rewrite app_nil_r; split; [reflexivity|left; reflexivity]].
    destruct txt_loader_load as [txt_docs|e];
      [|exists []; rewrite app_nil_r; split; [reflexivity|left; reflexivity]].
    cbv zeta.
    destruct (pdf_docs ++ txt_docs)%list as [|doc docs] eqn:Hdocs;
      [exists []; rewrite app_nil_r; split; [reflexivity|left; reflexivity]|].
    destruct (split_documents (doc :: docs)) as [splits|e] eqn:Hsplit;
      [|exists []; rewrite app_nil_r; split; [reflexivity|left; reflexivity]].
    destruct make_embeddings as [[]|e];
      [|exists []; rewrite app_nil_r; split; [reflexivity|left; reflexivity]].
    exists [("pooya-bot", splits)]. split.
    + destruct (from_documents splits); reflexivity.
    + right. exists pdf_docs, txt_docs, splits.
      rewrite Hdocs. repeat split; try assumption. discriminate.
  - intros -> ->. unfold ingest, print. cbn. rewrite <- app_assoc. reflexivity.
Qed.

Lemma ingest_uploads_at_most_once_witness :
  ingest (Ok []) (Ok []) (fun docs => Ok docs) (Ok tt) (fun _ => Ok tt)
         {| stdout := []; uploads := [] |}
  = (Ok tt,
     {| stdout := ["--- 1. Loading Your 'Brain' (Data) ---";
                   "No data found in 'data/' folder!"];
        uploads := [] |}).
Proof.
  apply (ingest_uploads_at_most_once (Ok []) (Ok []) (fun docs => Ok docs) (Ok tt)
           (fun _ => Ok tt) {| stdout := []; uploads := [] |}); reflexivity.
Defined.

(** ** Concrete turns, continued *)

Lemma memory_text_empty_iff_witness :
  check_my_memory (fun _ => Ok [mkDocument ""]) "resume" = Ok "".
Proof.
  apply (memory_text_empty_iff (fun _ => Ok [mkDocument ""]) "resume").
  exists (mkDocument ""). split; reflexivity.
Defined.

Lemma text_extraction_empty_iff_witness :
  text_extraction (VList [VDict [("type", VStr "text"); ("text", VStr "")]]) = VStr "".
Proof.
  apply text_extraction_empty_iff. right.
  exists [("type", VStr "text"); ("text", VStr "")], []. split; reflexivity.
Defined.

Lemma direct_answer_turn_witness :
  compose_reply greeting_model memory_tool_node "hello" quiet
  = (Ok (VStr "hi there"), record_model_call (seed_messages "hello") quiet).
Proof.
  apply (@direct_answer_turn greeting_model memory_tool_node "hello" quiet
           {| ai_content := VStr "hi there"; ai_tool_calls := [] |});
    reflexivity.
Defined.

Lemma invoke_returns_model_answer_witness :
  exists log r,
    (seed_messages "hello"
     ++ [AIMessage (VStr "") [resume_call];
         ToolMessage (VStr "No specific personal memory found.") "call_1";
         AIMessage (VStr "Pooya has no resume on file.") []])%list
    = (log ++ [AIMessage (ai_content r) []])%list
    /\ one_lookup_model log = Ok r
    /\ ai_tool_calls r = [].
Proof.
  destruct (@invoke_returns_model_answer one_lookup_model memory_tool_node
              {| messages := seed_messages "hello" |} 10 quiet
              {| messages :=
                   (seed_messages "hello"
                    ++ [AIMessage (VStr "") [resume_call];
                        ToolMessage (VStr "No specific personal memory found.") "call_1";
                        AIMessage (VStr "Pooya has no resume on file.") []])%list |}
              eq_refl)
    as [log [r [H1 [H2 [H3 _]]]]].
  exists log, r. repeat split; assumption.
Defined.

Lemma turn_alternates_witness :
  exists m t,
    List.length
      (model_calls (snd (compose_reply one_lookup_model memory_tool_node "hello" quiet)))
    = m
    /\ List.length
         (tool_runs (snd (compose_reply one_lookup_model memory_tool_node "hello" quiet)))
       = t
    /\ m = t + 1 /\ t <= 4.
Proof.
  destruct (turn_alternates one_lookup_model memory_tool_node "hello" quiet)
    as [m [t [Hm [Ht [_ [_ Hs]]]]]].
  exists m, t. split; [exact Hm|]. split; [exact Ht|].
  eapply Hs. reflexivity.
Defined.

